(** * ScaledObject validation and derivation (apis/keda/v1alpha1/scaledobject_types.go)

    A shallow embedding of the decision logic of [scaledobject_types.go]:
    the replica-bound defaults ([GetHPAMinReplicas], [GetHPAMaxReplicas]),
    the scaling-modifier detector ([IsUsingModifiers]), the two validators
    ([CheckReplicaCountBoundsAreValid], [CheckFallbackValid]) and the pause
    resolution from annotations ([NeedToBePausedByAnnotation]).

    Conventions.
    - A Go [int32] is a [Z]; the functions below only compare such values
      (no arithmetic), so no wrap-around occurs and every theorem holds for
      all of [Z], in particular for the values of an [int32].
    - A nullable pointer [*T] is an [option T]; [nil] is [None].
    - [map[string]string] is a [gmap string string]; looking a key up in a
      nil map and in an empty map both report "not found".
    - A Go [error] result is an [option ValidationError]; [nil] is [None]. *)

From Stdlib Require Import ZArith List Bool Lia Ascii DecimalString DecimalPos
  DecimalZ Permutation.
From stdpp Require Import base gmap strings.

Local Open Scope string_scope.
Local Open Scope Z_scope.

(** ** Data model *)

(** [autoscalingv2.MetricTargetType] is a string type of the Kubernetes API;
    its constants are "Utilization", "Value" and "AverageValue", and the
    zero value "" means that the field is unset. *)
Definition MetricTargetType := string.
Definition UtilizationMetricType : MetricTargetType := "Utilization".
Definition ValueMetricType : MetricTargetType := "Value".
Definition AverageValueMetricType : MetricTargetType := "AverageValue".

Definition PausedReplicasAnnotation : string := "autoscaling.keda.sh/paused-replicas".
Definition PausedAnnotation : string := "autoscaling.keda.sh/paused".

Definition defaultHPAMinReplicas : Z := 1.
Definition defaultHPAMaxReplicas : Z := 100.

(** Modelled from the spec: the constants [cpuString] and [memoryString] are
    declared in another file of the package; the spec names the two reserved
    type tags [cpu] and [memory]. *)
Definition cpuString : string := "cpu".
Definition memoryString : string := "memory".

Module ScaleTarget.
Record t := mk {
  Name : string;
  APIVersion : string;
  Kind : string;
  EnvSourceContainerName : string
}.
End ScaleTarget.

Module Fallback.
Record t := mk {
  FailureThreshold : Z;
  Replicas : Z;
  Behavior : string
}.
End Fallback.

Module ScalingModifiers.
Record t := mk {
  Formula : string;
  Target : string;
  ActivationTarget : string;
  MetricType : MetricTargetType
}.
(** The composite literal [ScalingModifiers{}]: every field at its zero value. *)
Definition zero : t := mk "" "" "" "".
End ScalingModifiers.

Module AdvancedConfig.
(** [HorizontalPodAutoscalerConfig] is an opaque pass-through that none of
    the functions below reads; only its presence is kept. *)
Record t := mk {
  HorizontalPodAutoscalerConfig : option string;
  RestoreToOriginalReplicaCount : bool;
  ScalingModifiers : ScalingModifiers.t
}.
End AdvancedConfig.

Module ScaleTriggers.
(** Modelled from the spec: the struct [ScaleTriggers] is declared in another
    file of the package; the spec gives a trigger a type tag (a string) and a
    metric-target-type, and the code below reads [Type] and [MetricType]. *)
Record t := mk {
  Type_ : string;
  Name : string;
  MetricType : MetricTargetType
}.
End ScaleTriggers.

Module ScaledObjectSpec.
Record t := mk {
  ScaleTargetRef : option ScaleTarget.t;
  PollingInterval : option Z;
  InitialCooldownPeriod : option Z;
  CooldownPeriod : option Z;
  IdleReplicaCount : option Z;
  MinReplicaCount : option Z;
  MaxReplicaCount : option Z;
  Advanced : option AdvancedConfig.t;
  Triggers : list ScaleTriggers.t;
  Fallback : option Fallback.t
}.

(** The same spec with another trigger sequence. *)
Definition withTriggers (s : t) (ts : list ScaleTriggers.t) : t :=
  mk (ScaleTargetRef s) (PollingInterval s) (InitialCooldownPeriod s)
     (CooldownPeriod s) (IdleReplicaCount s) (MinReplicaCount s)
     (MaxReplicaCount s) (Advanced s) ts (Fallback s).
End ScaledObjectSpec.

Module ScaledObjectStatus.
(** Only the fields that are plain data are kept; the functions below read
    [PausedReplicaCount] alone. *)
Record t := mk {
  ScaleTargetKind : string;
  OriginalReplicaCount : option Z;
  PausedReplicaCount : option Z;
  HpaName : string
}.
End ScaledObjectStatus.

Module ObjectMeta.
Record t := mk {
  Name : string;
  Namespace : string;
  Annotations : gmap string string
}.
End ObjectMeta.

Module ScaledObject.
Record t := mk {
  ObjectMeta : ObjectMeta.t;
  Spec : ScaledObjectSpec.t;
  Status : ScaledObjectStatus.t
}.

Definition withTriggers (so : t) (ts : list ScaleTriggers.t) : t :=
  mk (ObjectMeta so) (ScaledObjectSpec.withTriggers (Spec so) ts) (Status so).
End ScaledObject.

(** ** Results of the validators *)

(** The validators return [fmt.Errorf] values.  Each constructor stands for
    one of the five format strings of the source and carries the values that
    the format interpolates; [ErrorString] renders the message. *)
Inductive ValidationError : Type :=
| OutOfBoundsReplicaCount (minReplicas maxReplicas : Z)
| IdleAboveOrEqualMin (idleReplicaCount minReplicas : Z)
| NegativeFallbackField (failureThreshold replicas : Z)
| UnsupportedFallbackMetricType
| NoEligibleFallbackTrigger.

(** The verb [%d] on an [int32]. *)
Definition fmt_d (z : Z) : string := NilZero.string_of_int (Z.to_int z).

Definition ErrorString (e : ValidationError) : string :=
  match e with
  | OutOfBoundsReplicaCount minReplicas maxReplicas =>
      "MinReplicaCount=" +:+ fmt_d minReplicas +:+
      " must be less than MaxReplicaCount=" +:+ fmt_d maxReplicas
  | IdleAboveOrEqualMin idleReplicaCount minReplicas =>
      "IdleReplicaCount=" +:+ fmt_d idleReplicaCount +:+
      " must be less than MinReplicaCount=" +:+ fmt_d minReplicas
  | NegativeFallbackField failureThreshold replicas =>
      "FailureThreshold=" +:+ fmt_d failureThreshold +:+
      " & Replicas=" +:+ fmt_d replicas +:+
      " must both be greater than or equal to 0"
  | UnsupportedFallbackMetricType =>
      "when using ScalingModifiers, ScaledObject.Spec.Advanced.ScalingModifiers.MetricType must be AverageValue to have fallback enabled"
  | NoEligibleFallbackTrigger =>
      "at least one trigger (that is not cpu or memory) has to have the `AverageValue` type for the fallback to be enabled"
  end.

(** ** Annotations *)

(** [p != nil] on a pointer. *)
Definition notNil {A : Type} (p : option A) : bool :=
  match p with
  | Some _ => true
  | None => false
  end.

Definition GetAnnotations (so : ScaledObject.t) : gmap string string :=
  ObjectMeta.Annotations (ScaledObject.ObjectMeta so).

(** [strconv.ParseBool] of the Go standard library: it accepts exactly
    1, t, T, TRUE, true, True, 0, f, F, FALSE, false, False and reports an
    error ([None]) on every other string. *)
Definition ParseBool (str : string) : option bool :=
  if existsb (String.eqb str) ["1"; "t"; "T"; "TRUE"; "true"; "True"] then Some true
  else if existsb (String.eqb str) ["0"; "f"; "F"; "FALSE"; "false"; "False"] then Some false
  else None.

Definition HasPausedReplicaAnnotation (so : ScaledObject.t) : bool :=
  let pausedReplicasAnnotationFound := notNil (GetAnnotations so !! PausedReplicasAnnotation) in
  pausedReplicasAnnotationFound.

Definition HasPausedAnnotation (so : ScaledObject.t) : bool :=
  let pausedAnnotationFound := notNil (GetAnnotations so !! PausedAnnotation) in
  let pausedReplicasAnnotationFound := notNil (GetAnnotations so !! PausedReplicasAnnotation) in
  pausedAnnotationFound || pausedReplicasAnnotationFound.

Definition NeedToBePausedByAnnotation (so : ScaledObject.t) : bool :=
  match GetAnnotations so !! PausedReplicasAnnotation with
  | Some _ =>
      notNil (ScaledObjectStatus.PausedReplicaCount (ScaledObject.Status so))
  | None =>
      match GetAnnotations so !! PausedAnnotation with
      | None => false
      | Some pausedAnnotationValue =>
          match ParseBool pausedAnnotationValue with
          | None => true
          | Some shouldPause => shouldPause
          end
      end
  end.

(** ** Scaling modifiers *)

(** [reflect.DeepEqual] at the struct type [ScalingModifiers]: the four string
    fields are compared one by one. *)
Definition DeepEqual (a b : ScalingModifiers.t) : bool :=
  String.eqb (ScalingModifiers.Formula a) (ScalingModifiers.Formula b)
  && String.eqb (ScalingModifiers.Target a) (ScalingModifiers.Target b)
  && String.eqb (ScalingModifiers.ActivationTarget a) (ScalingModifiers.ActivationTarget b)
  && String.eqb (ScalingModifiers.MetricType a) (ScalingModifiers.MetricType b).

Definition IsUsingModifiers (so : ScaledObject.t) : bool :=
  match ScaledObjectSpec.Advanced (ScaledObject.Spec so) with
  | None => false
  | Some advanced =>
      negb (DeepEqual (AdvancedConfig.ScalingModifiers advanced) ScalingModifiers.zero)
  end.

(** ** Replica bounds *)

(** The source returns a pointer that is never nil; the embedding returns the
    value it points to. *)
Definition GetHPAMinReplicas (so : ScaledObject.t) : Z :=
  match ScaledObjectSpec.MinReplicaCount (ScaledObject.Spec so) with
  | Some minReplicaCount =>
      if minReplicaCount >? 0 then minReplicaCount else defaultHPAMinReplicas
  | None => defaultHPAMinReplicas
  end.

Definition GetHPAMaxReplicas (so : ScaledObject.t) : Z :=
  match ScaledObjectSpec.MaxReplicaCount (ScaledObject.Spec so) with
  | Some maxReplicaCount => maxReplicaCount
  | None => defaultHPAMaxReplicas
  end.

Definition CheckReplicaCountBoundsAreValid (scaledObject : ScaledObject.t)
  : option ValidationError :=
  let minReplicas :=
    if notNil (ScaledObjectSpec.MinReplicaCount (ScaledObject.Spec scaledObject))
    then GetHPAMinReplicas scaledObject
    else 0 in
  let maxReplicas := GetHPAMaxReplicas scaledObject in
  if minReplicas >? maxReplicas then
    Some (OutOfBoundsReplicaCount minReplicas maxReplicas)
  else
    match ScaledObjectSpec.IdleReplicaCount (ScaledObject.Spec scaledObject) with
    | Some idleReplicaCount =>
        if idleReplicaCount >=? minReplicas
        then Some (IdleAboveOrEqualMin idleReplicaCount minReplicas)
        else None
    | None => None
    end.

(** ** Fallback *)

(** The [for ... range] loop over the triggers: [true] is the [break] with
    [fallbackValid = true], the recursive calls are [continue] and the next
    iteration, and the empty list leaves [fallbackValid] at [false]. *)
Fixpoint scanTriggers (triggers : list ScaleTriggers.t) : bool :=
  match triggers with
  | [] => false
  | trigger :: rest =>
      if String.eqb (ScaleTriggers.Type_ trigger) cpuString
         || String.eqb (ScaleTriggers.Type_ trigger) memoryString
      then scanTriggers rest
      else
        let effectiveMetricType :=
          if String.eqb (ScaleTriggers.MetricType trigger) ""
          then AverageValueMetricType
          else ScaleTriggers.MetricType trigger in
        if String.eqb effectiveMetricType AverageValueMetricType
        then true
        else scanTriggers rest
  end.

Definition CheckFallbackValid (scaledObject : ScaledObject.t)
  : option ValidationError :=
  match ScaledObjectSpec.Fallback (ScaledObject.Spec scaledObject) with
  | None => None
  | Some fallback =>
      if (Fallback.FailureThreshold fallback <? 0) || (Fallback.Replicas fallback <? 0)
      then Some (NegativeFallbackField (Fallback.FailureThreshold fallback)
                                       (Fallback.Replicas fallback))
      else if IsUsingModifiers scaledObject then
        match ScaledObjectSpec.Advanced (ScaledObject.Spec scaledObject) with
        | Some advanced =>
            if String.eqb (ScalingModifiers.MetricType (AdvancedConfig.ScalingModifiers advanced))
                          ValueMetricType
            then Some UnsupportedFallbackMetricType
            else None
        | None => None
        end
      else
        let fallbackValid := scanTriggers (ScaledObjectSpec.Triggers (ScaledObject.Spec scaledObject)) in
        if negb fallbackValid then Some NoEligibleFallbackTrigger else None
  end.

(** ** Specification-side definitions *)

(** The specification's comparison baseline of the bounds check, in its own
    words: "the declared min-replica-count if present (else 0)". *)
Definition declaredOrZeroMin (so : ScaledObject.t) : Z :=
  match ScaledObjectSpec.MinReplicaCount (ScaledObject.Spec so) with
  | Some minReplicaCount => minReplicaCount
  | None => 0
  end.

(** The specification's fallback-eligible trigger, in its own words: the type
    tag is neither [cpu] nor [memory], and the effective metric-target-type
    (the declared value, or [AverageValue] if unset) equals [AverageValue]. *)
Definition fallbackEligible (trigger : ScaleTriggers.t) : Prop :=
  ScaleTriggers.Type_ trigger <> "cpu" /\
  ScaleTriggers.Type_ trigger <> "memory" /\
  (ScaleTriggers.MetricType trigger = "" \/
   ScaleTriggers.MetricType trigger = "AverageValue").

(** "Fails with" one of the failure kinds that carry values. *)
Definition isOutOfBoundsReplicaCount (r : option ValidationError) : Prop :=
  exists minReplicas maxReplicas,
    r = Some (OutOfBoundsReplicaCount minReplicas maxReplicas).

Definition isIdleAboveOrEqualMin (r : option ValidationError) : Prop :=
  exists idleReplicaCount minReplicas,
    r = Some (IdleAboveOrEqualMin idleReplicaCount minReplicas).

Definition isNegativeFallbackField (r : option ValidationError) : Prop :=
  exists failureThreshold replicas,
    r = Some (NegativeFallbackField failureThreshold replicas).

(** Two specs that agree on every field except, possibly, [Triggers]. *)
Definition sameExceptTriggers (s1 s2 : ScaledObjectSpec.t) : Prop :=
  ScaledObjectSpec.withTriggers s1 [] = ScaledObjectSpec.withTriggers s2 [].

(** ** Concrete resources *)

Definition emptyStatus : ScaledObjectStatus.t := ScaledObjectStatus.mk "" None None "".

(** A resource named [so] in namespace [default] with the given replica
    counts and nothing else. *)
Definition replicaSpec (idle minR maxR : option Z) : ScaledObject.t :=
  ScaledObject.mk (ObjectMeta.mk "so" "default" ∅)
    (ScaledObjectSpec.mk None None None None idle minR maxR None [] None)
    emptyStatus.

(** A resource with the given advanced block, triggers and fallback. *)
Definition fallbackSpec (advanced : option AdvancedConfig.t)
    (triggers : list ScaleTriggers.t) (fallback : option Fallback.t) : ScaledObject.t :=
  ScaledObject.mk (ObjectMeta.mk "so" "default" ∅)
    (ScaledObjectSpec.mk None None None None None None None advanced triggers fallback)
    emptyStatus.

(** A resource with the given annotations and paused replica count. *)
Definition annotatedObject (annotations : gmap string string)
    (pausedReplicaCount : option Z) : ScaledObject.t :=
  ScaledObject.mk (ObjectMeta.mk "so" "default" annotations)
    (ScaledObjectSpec.mk None None None None None None None None [] None)
    (ScaledObjectStatus.mk "" None pausedReplicaCount "").

Definition min0_max0 : ScaledObject.t := replicaSpec None (Some 0) (Some 0).
Definition min0_idle0 : ScaledObject.t := replicaSpec (Some 0) (Some 0) None.
Definition min10_idle10 : ScaledObject.t := replicaSpec (Some 10) (Some 10) None.
Definition min10_idle9 : ScaledObject.t := replicaSpec (Some 9) (Some 10) None.
Definition min5_max3 : ScaledObject.t := replicaSpec None (Some 5) (Some 3).

(** Annotation maps. *)
Definition bothPauseAnnotations : gmap string string :=
  {[ PausedAnnotation := "true"; PausedReplicasAnnotation := "3" ]}.

(** Advanced blocks: modifiers with only a formula, with metric type
    [Value], with metric type [AverageValue], with only a metric type, and
    with no modifier field set. *)
Definition formulaOnly : AdvancedConfig.t :=
  AdvancedConfig.mk None false (ScalingModifiers.mk "a + b" "" "" "").
Definition modifiersValue : AdvancedConfig.t :=
  AdvancedConfig.mk None false (ScalingModifiers.mk "a + b" "2" "" ValueMetricType).
Definition modifiersAverageValue : AdvancedConfig.t :=
  AdvancedConfig.mk None false (ScalingModifiers.mk "a + b" "2" "" AverageValueMetricType).
Definition metricTypeOnly : AdvancedConfig.t :=
  AdvancedConfig.mk None false (ScalingModifiers.mk "" "" "" ValueMetricType).
Definition emptyAdvanced : AdvancedConfig.t :=
  AdvancedConfig.mk (Some "keda-hpa") true ScalingModifiers.zero.

(** Fallback blocks and triggers. *)
Definition staticFallback : Fallback.t := Fallback.mk 3 2 "static".
Definition cpuTrigger : ScaleTriggers.t := ScaleTriggers.mk "cpu" "" "".
Definition memoryTrigger : ScaleTriggers.t := ScaleTriggers.mk "memory" "" "".
Definition kafkaTrigger : ScaleTriggers.t := ScaleTriggers.mk "kafka" "" "".
Definition kafkaValueTrigger : ScaleTriggers.t := ScaleTriggers.mk "kafka" "" ValueMetricType.

(** ** Updates used to compare resources *)

(** The same resource with another annotation map. *)
Definition withAnnotations (so : ScaledObject.t) (annotations : gmap string string)
  : ScaledObject.t :=
  ScaledObject.mk
    (ObjectMeta.mk (ObjectMeta.Name (ScaledObject.ObjectMeta so))
                   (ObjectMeta.Namespace (ScaledObject.ObjectMeta so))
                   annotations)
    (ScaledObject.Spec so) (ScaledObject.Status so).

(** The same resource with another fallback block. *)
Definition withFallback (so : ScaledObject.t) (fallback : option Fallback.t)
  : ScaledObject.t :=
  let s := ScaledObject.Spec so in
  ScaledObject.mk (ScaledObject.ObjectMeta so)
    (ScaledObjectSpec.mk
       (ScaledObjectSpec.ScaleTargetRef s) (ScaledObjectSpec.PollingInterval s)
       (ScaledObjectSpec.InitialCooldownPeriod s) (ScaledObjectSpec.CooldownPeriod s)
       (ScaledObjectSpec.IdleReplicaCount s) (ScaledObjectSpec.MinReplicaCount s)
       (ScaledObjectSpec.MaxReplicaCount s) (ScaledObjectSpec.Advanced s)
       (ScaledObjectSpec.Triggers s) fallback)
    (ScaledObject.Status so).

(** The test of the loop's [continue]: the trigger is a cpu or memory one. *)
Definition isResourceTrigger (trigger : ScaleTriggers.t) : bool :=
  String.eqb (ScaleTriggers.Type_ trigger) cpuString
  || String.eqb (ScaleTriggers.Type_ trigger) memoryString.

Definition dropResourceTriggers (triggers : list ScaleTriggers.t) : list ScaleTriggers.t :=
  List.filter (fun trigger => negb (isResourceTrigger trigger)) triggers.

(** The strings that [strconv.ParseBool] reads as false. *)
Definition falseStrings : list string := ["0"; "f"; "F"; "FALSE"; "false"; "False"].

(** Case analysis on the two optional counts and on every integer comparison
    in sight. *)
Ltac bounds_cases so :=
  unfold isOutOfBoundsReplicaCount, isIdleAboveOrEqualMin in *;
  destruct (ScaledObjectSpec.MinReplicaCount (ScaledObject.Spec so)) as [m|];
  destruct (ScaledObjectSpec.IdleReplicaCount (ScaledObject.Spec so)) as [idle|];
  repeat match goal with
         | |- context [?a >? ?b] => destruct (Z.gtb_spec a b)
         | |- context [?a >=? ?b] => destruct (Z.geb_spec a b)
         | H : context [?a >? ?b] |- _ => destruct (Z.gtb_spec a b)
         | H : context [?a >=? ?b] |- _ => destruct (Z.geb_spec a b)
         end.

(** ** Replica-bound defaults *)

Lemma GetHPAMinReplicas_declared_positive so m :
  ScaledObjectSpec.MinReplicaCount (ScaledObject.Spec so) = Some m ->
  0 < m -> GetHPAMinReplicas so = m.
Proof.
  intros Hm Hpos. unfold GetHPAMinReplicas. rewrite Hm.
  destruct (Z.gtb_spec m 0); [reflexivity | lia].
Qed.

Lemma GetHPAMinReplicas_declared_nonpositive so m :
  ScaledObjectSpec.MinReplicaCount (ScaledObject.Spec so) = Some m ->
  m <= 0 -> GetHPAMinReplicas so = 1.
Proof.
  intros Hm Hle. unfold GetHPAMinReplicas. rewrite Hm.
  destruct (Z.gtb_spec m 0); [lia | reflexivity].
Qed.

Lemma GetHPAMinReplicas_absent so :
  ScaledObjectSpec.MinReplicaCount (ScaledObject.Spec so) = None ->
  GetHPAMinReplicas so = 1.
Proof. intros Hm. unfold GetHPAMinReplicas. now rewrite Hm. Qed.

(** C7: [GetHPAMinReplicas] returns the declared min-replica-count when it is
    present and strictly greater than zero, and 1 otherwise;
    [GetHPAMaxReplicas] returns the declared max-replica-count when present
    and 100 otherwise; with neither declared the results are 1 and 100. *)
Theorem GetHPAReplicas_defaults (so : ScaledObject.t) :
  let spec := ScaledObject.Spec so in
  (forall m, ScaledObjectSpec.MinReplicaCount spec = Some m -> 0 < m ->
             GetHPAMinReplicas so = m) /\
  (forall m, ScaledObjectSpec.MinReplicaCount spec = Some m -> m <= 0 ->
             GetHPAMinReplicas so = 1) /\
  (ScaledObjectSpec.MinReplicaCount spec = None -> GetHPAMinReplicas so = 1) /\
  (forall m, ScaledObjectSpec.MaxReplicaCount spec = Some m ->
             GetHPAMaxReplicas so = m) /\
  (ScaledObjectSpec.MaxReplicaCount spec = None -> GetHPAMaxReplicas so = 100) /\
  (ScaledObjectSpec.MinReplicaCount spec = None ->
   ScaledObjectSpec.MaxReplicaCount spec = None ->
   GetHPAMinReplicas so = 1 /\ GetHPAMaxReplicas so = 100).
Proof.
  cbv zeta. split; [| split; [| split; [| split; [| split]]]].
  - intros m Hm Hpos. exact (GetHPAMinReplicas_declared_positive so m Hm Hpos).
  - intros m Hm Hle. exact (GetHPAMinReplicas_declared_nonpositive so m Hm Hle).
  - apply GetHPAMinReplicas_absent.
  - intros m Hm. unfold GetHPAMaxReplicas. now rewrite Hm.
  - intros Hm. unfold GetHPAMaxReplicas. now rewrite Hm.
  - intros Hmin Hmax. split.
    + now apply GetHPAMinReplicas_absent.
    + unfold GetHPAMaxReplicas. now rewrite Hmax.
Qed.

Lemma GetHPAReplicas_defaults_witness :
  GetHPAMinReplicas min5_max3 = 5 /\
  GetHPAMaxReplicas min5_max3 = 3 /\
  GetHPAMinReplicas min0_max0 = 1 /\
  GetHPAMinReplicas (replicaSpec None None None) = 1 /\
  GetHPAMaxReplicas (replicaSpec None None None) = 100.
Proof.
  pose proof (GetHPAReplicas_defaults min5_max3) as (Hpos & _ & _ & Hmax & _).
  pose proof (GetHPAReplicas_defaults min0_max0) as (_ & Hle & _).
  pose proof (GetHPAReplicas_defaults (replicaSpec None None None)) as (_ & _ & _ & _ & _ & Hnone).
  split; [apply (Hpos 5); [reflexivity | lia] |].
  split; [apply (Hmax 3); reflexivity |].
  split; [apply (Hle 0); [reflexivity | lia] |].
  apply Hnone; reflexivity.
Defined.

(** C9: the value returned by [GetHPAMinReplicas] is at least 1; a declared
    min-replica-count that is zero or negative is never returned, the default
    1 is. *)
Theorem GetHPAMinReplicas_positive (so : ScaledObject.t) :
  1 <= GetHPAMinReplicas so /\
  (forall m, ScaledObjectSpec.MinReplicaCount (ScaledObject.Spec so) = Some m ->
             m <= 0 -> GetHPAMinReplicas so = 1 /\ GetHPAMinReplicas so <> m).
Proof.
  split.
  - unfold GetHPAMinReplicas.
    destruct (ScaledObjectSpec.MinReplicaCount (ScaledObject.Spec so)) as [m|].
    + destruct (Z.gtb_spec m 0); unfold defaultHPAMinReplicas; lia.
    + unfold defaultHPAMinReplicas; lia.
  - intros m Hm Hle.
    rewrite (GetHPAMinReplicas_declared_nonpositive so m Hm Hle). split; lia.
Qed.

Lemma GetHPAMinReplicas_positive_witness :
  1 <= GetHPAMinReplicas (replicaSpec None (Some (-4)) None) /\
  GetHPAMinReplicas (replicaSpec None (Some (-4)) None) = 1.
Proof.
  pose proof (GetHPAMinReplicas_positive (replicaSpec None (Some (-4)) None)) as [Hge Hdef].
  split; [exact Hge |].
  apply (Hdef (-4)); [reflexivity | lia].
Defined.

(** ** Replica-bound validation *)

(** The whole of [CheckReplicaCountBoundsAreValid] in one equation: the
    compared minimum is [Z.max 1 m] for a declared [m] and 0 otherwise. *)
Lemma CheckReplicaCountBoundsAreValid_eq (so : ScaledObject.t) :
  let minReplicas :=
    match ScaledObjectSpec.MinReplicaCount (ScaledObject.Spec so) with
    | Some m => Z.max 1 m
    | None => 0
    end in
  CheckReplicaCountBoundsAreValid so =
  if minReplicas >? GetHPAMaxReplicas so
  then Some (OutOfBoundsReplicaCount minReplicas (GetHPAMaxReplicas so))
  else match ScaledObjectSpec.IdleReplicaCount (ScaledObject.Spec so) with
       | Some idle =>
           if idle >=? minReplicas
           then Some (IdleAboveOrEqualMin idle minReplicas)
           else None
       | None => None
       end.
Proof.
  cbv zeta. unfold CheckReplicaCountBoundsAreValid, GetHPAMinReplicas.
  destruct (ScaledObjectSpec.MinReplicaCount (ScaledObject.Spec so)) as [m|];
    cbn [notNil]; [| reflexivity].
  replace (if m >? 0 then m else defaultHPAMinReplicas) with (Z.max 1 m);
    [reflexivity |].
  unfold defaultHPAMinReplicas. destruct (Z.gtb_spec m 0); lia.
Qed.

(** On failure the bounds error reports the compared minimum and the
    effective maximum. *)
Lemma CheckReplicaCountBoundsAreValid_out_of_bounds_values so minReplicas maxReplicas :
  CheckReplicaCountBoundsAreValid so =
    Some (OutOfBoundsReplicaCount minReplicas maxReplicas) ->
  maxReplicas = GetHPAMaxReplicas so /\ maxReplicas < minReplicas /\
  (minReplicas = 0 \/ minReplicas = GetHPAMinReplicas so).
Proof.
  intros H. unfold CheckReplicaCountBoundsAreValid in H.
  destruct (ScaledObjectSpec.MinReplicaCount (ScaledObject.Spec so)) as [m|];
    cbn [notNil] in H;
    destruct (ScaledObjectSpec.IdleReplicaCount (ScaledObject.Spec so)) as [idle|];
    repeat match type of H with
           | context [?a >? ?b] => destruct (Z.gtb_spec a b)
           | context [?a >=? ?b] => destruct (Z.geb_spec a b)
           end;
    inversion H; subst; repeat split; auto; lia.
Qed.

(** C1 (as amended): the bounds check fails with [OutOfBoundsReplicaCount]
    exactly when the compared minimum exceeds the effective maximum, where the
    compared minimum is the declared min-replica-count when it is present and
    strictly positive, 1 when it is present but zero or negative, and 0 when
    it is absent. *)
Theorem CheckReplicaCountBoundsAreValid_out_of_bounds_iff (so : ScaledObject.t) :
  isOutOfBoundsReplicaCount (CheckReplicaCountBoundsAreValid so) <->
  match ScaledObjectSpec.MinReplicaCount (ScaledObject.Spec so) with
  | Some m =>
      (0 < m /\ GetHPAMaxReplicas so < m) \/ (m <= 0 /\ GetHPAMaxReplicas so < 1)
  | None => GetHPAMaxReplicas so < 0
  end.
Proof.
  rewrite (CheckReplicaCountBoundsAreValid_eq so). cbv zeta.
  bounds_cases so; split;
    try (intros (a & b & Heq); discriminate Heq);
    try (intros _; eauto; fail);
    try lia.
Qed.

Lemma CheckReplicaCountBoundsAreValid_out_of_bounds_iff_witness :
  isOutOfBoundsReplicaCount (CheckReplicaCountBoundsAreValid min5_max3) /\
  ~ isOutOfBoundsReplicaCount (CheckReplicaCountBoundsAreValid (replicaSpec None (Some 5) None)).
Proof.
  split.
  - apply (proj2 (CheckReplicaCountBoundsAreValid_out_of_bounds_iff min5_max3)).
    left. split; [lia | reflexivity].
  - intros H.
    apply (proj1 (CheckReplicaCountBoundsAreValid_out_of_bounds_iff
                    (replicaSpec None (Some 5) None))) in H.
    change (0 < 5 /\ 100 < 5 \/ 5 <= 0 /\ 100 < 1) in H. lia.
Defined.

(** C1 (as stated) fails for a declared min of 0 and a declared max of 0: the
    code compares 1 against 0 and reports [OutOfBoundsReplicaCount], while the
    declared-or-zero minimum 0 does not exceed 0. *)
Lemma declared_or_zero_min_bound_counterexample :
  ~ (isOutOfBoundsReplicaCount (CheckReplicaCountBoundsAreValid min0_max0) <->
     declaredOrZeroMin min0_max0 > GetHPAMaxReplicas min0_max0).
Proof.
  intros [Hfail _].
  assert (Hgt : declaredOrZeroMin min0_max0 > GetHPAMaxReplicas min0_max0).
  { apply Hfail. exists 1, 0. reflexivity. }
  change (0 > 0) in Hgt. lia.
Qed.

(** C2 (as amended): when the min/max comparison does not fail, the check
    fails with [IdleAboveOrEqualMin] exactly when idle-replica-count is set
    and is at least the compared minimum (the declared min when present and
    strictly positive, 1 when present but zero or negative, 0 when absent);
    otherwise it succeeds. *)
Theorem CheckReplicaCountBoundsAreValid_idle_iff (so : ScaledObject.t) :
  ~ isOutOfBoundsReplicaCount (CheckReplicaCountBoundsAreValid so) ->
  (isIdleAboveOrEqualMin (CheckReplicaCountBoundsAreValid so) <->
   exists idle,
     ScaledObjectSpec.IdleReplicaCount (ScaledObject.Spec so) = Some idle /\
     match ScaledObjectSpec.MinReplicaCount (ScaledObject.Spec so) with
     | Some m => (0 < m /\ m <= idle) \/ (m <= 0 /\ 1 <= idle)
     | None => 0 <= idle
     end) /\
  (~ isIdleAboveOrEqualMin (CheckReplicaCountBoundsAreValid so) ->
   CheckReplicaCountBoundsAreValid so = None).
Proof.
  intros Hbounds.
  rewrite (CheckReplicaCountBoundsAreValid_eq so) in *. cbv zeta in *.
  bounds_cases so;
    try (exfalso; apply Hbounds; eauto; fail);
    (split; [split |]);
    try (intros (a & b & Heq); discriminate Heq);
    try (intros (i & Heq & Hi); inversion Heq; subst; lia);
    try (intros (i & Heq & Hi); discriminate Heq);
    try (intros _; eauto; fail);
    try (intros _; eexists; split; [reflexivity | lia]);
    try (intros Hn; exfalso; apply Hn; eauto; fail);
    try reflexivity.
Qed.

Lemma CheckReplicaCountBoundsAreValid_idle_iff_witness :
  isIdleAboveOrEqualMin (CheckReplicaCountBoundsAreValid min10_idle10) /\
  CheckReplicaCountBoundsAreValid min10_idle9 = None.
Proof.
  assert (Hten : ~ isOutOfBoundsReplicaCount (CheckReplicaCountBoundsAreValid min10_idle10)).
  { intros (a & b & Heq). discriminate Heq. }
  assert (Hnine : ~ isOutOfBoundsReplicaCount (CheckReplicaCountBoundsAreValid min10_idle9)).
  { intros (a & b & Heq). discriminate Heq. }
  split.
  - apply (proj2 (proj1 (CheckReplicaCountBoundsAreValid_idle_iff min10_idle10 Hten))).
    exists 10. split; [reflexivity |]. left. lia.
  - apply (proj2 (CheckReplicaCountBoundsAreValid_idle_iff min10_idle9 Hnine)).
    intros (a & b & Heq). discriminate Heq.
Defined.

(** C2 (as stated) fails for a declared min of 0, no max and an idle count of
    0: the min/max comparison passes (1 against 100) and the code accepts the
    resource because 0 is below the compared minimum 1, while idle 0 is at
    least the declared-or-zero minimum 0. *)
Lemma declared_or_zero_min_idle_counterexample :
  ~ (~ isOutOfBoundsReplicaCount (CheckReplicaCountBoundsAreValid min0_idle0) ->
     (isIdleAboveOrEqualMin (CheckReplicaCountBoundsAreValid min0_idle0) <->
      exists idle,
        ScaledObjectSpec.IdleReplicaCount (ScaledObject.Spec min0_idle0) = Some idle /\
        idle >= declaredOrZeroMin min0_idle0)).
Proof.
  intros Hclaim.
  assert (Hbounds : ~ isOutOfBoundsReplicaCount (CheckReplicaCountBoundsAreValid min0_idle0)).
  { intros (a & b & Heq). discriminate Heq. }
  destruct (Hclaim Hbounds) as [_ Hfail].
  destruct Hfail as (a & b & Heq).
  - exists 0. split; [reflexivity |]. change (0 >= 0). lia.
  - discriminate Heq.
Qed.

Example CheckReplicaCountBoundsAreValid_min0_max0 :
  CheckReplicaCountBoundsAreValid min0_max0 = Some (OutOfBoundsReplicaCount 1 0).
Proof. reflexivity. Qed.

Example CheckReplicaCountBoundsAreValid_min0_idle0 :
  CheckReplicaCountBoundsAreValid min0_idle0 = None.
Proof. reflexivity. Qed.

Example CheckReplicaCountBoundsAreValid_min10_idle9 :
  CheckReplicaCountBoundsAreValid min10_idle9 = None.
Proof. reflexivity. Qed.

Example CheckReplicaCountBoundsAreValid_min5_max3_message :
  option_map ErrorString (CheckReplicaCountBoundsAreValid min5_max3) =
  Some "MinReplicaCount=5 must be less than MaxReplicaCount=3".
Proof. reflexivity. Qed.

(** ** Pause resolution *)

Example ParseBool_accepts :
  map ParseBool ["1"; "t"; "T"; "TRUE"; "true"; "True"; "0"; "f"; "F"; "FALSE"; "false"; "False"]
  = [Some true; Some true; Some true; Some true; Some true; Some true;
     Some false; Some false; Some false; Some false; Some false; Some false].
Proof. reflexivity. Qed.

Example ParseBool_rejects :
  map ParseBool ["not-a-bool"; ""; "yes"; "tRuE"; " true"] = [None; None; None; None; None].
Proof. reflexivity. Qed.

(** C3: the paused-replicas annotation, when its key is present, decides alone:
    the result is whether [Status.PausedReplicaCount] is non-nil, whatever the
    values of the two annotations; otherwise an absent paused annotation gives
    false, and a present one gives its parsed boolean, or true when it does
    not parse. *)
Theorem NeedToBePausedByAnnotation_precedence (so : ScaledObject.t) :
  let annotations := GetAnnotations so in
  (forall v, annotations !! PausedReplicasAnnotation = Some v ->
     (NeedToBePausedByAnnotation so = true <->
      ScaledObjectStatus.PausedReplicaCount (ScaledObject.Status so) <> None)) /\
  (annotations !! PausedReplicasAnnotation = None ->
   annotations !! PausedAnnotation = None ->
   NeedToBePausedByAnnotation so = false) /\
  (forall v, annotations !! PausedReplicasAnnotation = None ->
     annotations !! PausedAnnotation = Some v ->
     (forall b, ParseBool v = Some b -> NeedToBePausedByAnnotation so = b) /\
     (ParseBool v = None -> NeedToBePausedByAnnotation so = true)).
Proof.
  cbv zeta. unfold NeedToBePausedByAnnotation. split; [| split].
  - intros v Hv. rewrite Hv.
    destruct (ScaledObjectStatus.PausedReplicaCount (ScaledObject.Status so)) as [n|];
      cbn [notNil]; split; congruence.
  - intros Hreplicas Hpaused. now rewrite Hreplicas, Hpaused.
  - intros v Hreplicas Hpaused. rewrite Hreplicas, Hpaused. split.
    + intros b Hb. now rewrite Hb.
    + intros Hb. now rewrite Hb.
Qed.

Lemma NeedToBePausedByAnnotation_precedence_witness :
  NeedToBePausedByAnnotation (annotatedObject bothPauseAnnotations None) = false /\
  NeedToBePausedByAnnotation (annotatedObject bothPauseAnnotations (Some 3)) = true /\
  NeedToBePausedByAnnotation (annotatedObject ∅ None) = false /\
  NeedToBePausedByAnnotation (annotatedObject {[ PausedAnnotation := "false" ]} None) = false /\
  NeedToBePausedByAnnotation (annotatedObject {[ PausedAnnotation := "not-a-bool" ]} None) = true.
Proof.
  pose proof (NeedToBePausedByAnnotation_precedence
                (annotatedObject bothPauseAnnotations None)) as (Hnil & _).
  pose proof (NeedToBePausedByAnnotation_precedence
                (annotatedObject bothPauseAnnotations (Some 3))) as (Hset & _).
  pose proof (NeedToBePausedByAnnotation_precedence
                (annotatedObject ∅ None)) as (_ & Habsent & _).
  pose proof (NeedToBePausedByAnnotation_precedence
                (annotatedObject {[ PausedAnnotation := "false" ]} None)) as (_ & _ & Hfalse).
  pose proof (NeedToBePausedByAnnotation_precedence
                (annotatedObject {[ PausedAnnotation := "not-a-bool" ]} None)) as (_ & _ & Hbad).
  split; [| split; [| split; [| split]]].
  - apply not_true_is_false. intros Htrue.
    apply (proj1 (Hnil "3" eq_refl)) in Htrue. now apply Htrue.
  - apply (proj2 (Hset "3" eq_refl)). discriminate.
  - apply Habsent; reflexivity.
  - apply (proj1 (Hfalse "false" eq_refl eq_refl) false). reflexivity.
  - apply (proj2 (Hbad "not-a-bool" eq_refl eq_refl)). reflexivity.
Defined.

(** ** Scaling modifiers *)

Lemma DeepEqual_eq (a b : ScalingModifiers.t) : DeepEqual a b = true <-> a = b.
Proof.
  unfold DeepEqual. destruct a as [f1 t1 a1 m1], b as [f2 t2 a2 m2]; cbn.
  rewrite !andb_true_iff, !String.eqb_eq. split.
  - intros [[[-> ->] ->] ->]. reflexivity.
  - intros H. inversion H. auto.
Qed.

Lemma ScalingModifiers_zero_fields (m : ScalingModifiers.t) :
  m = ScalingModifiers.zero <->
  ScalingModifiers.Formula m = "" /\ ScalingModifiers.Target m = "" /\
  ScalingModifiers.ActivationTarget m = "" /\ ScalingModifiers.MetricType m = "".
Proof.
  destruct m as [f t a mt]; cbn. unfold ScalingModifiers.zero. split.
  - intros H. inversion H. auto.
  - intros (-> & -> & -> & ->). reflexivity.
Qed.

(** C6: [IsUsingModifiers] is true exactly when the Advanced block is present
    and its ScalingModifiers differs from the zero value, that is, when not
    all of formula, target, activationTarget and metricType are empty. *)
Theorem IsUsingModifiers_iff (so : ScaledObject.t) :
  (IsUsingModifiers so = true <->
   exists advanced,
     ScaledObjectSpec.Advanced (ScaledObject.Spec so) = Some advanced /\
     AdvancedConfig.ScalingModifiers advanced <> ScalingModifiers.zero) /\
  (IsUsingModifiers so = true <->
   exists advanced,
     ScaledObjectSpec.Advanced (ScaledObject.Spec so) = Some advanced /\
     let m := AdvancedConfig.ScalingModifiers advanced in
     ~ (ScalingModifiers.Formula m = "" /\ ScalingModifiers.Target m = "" /\
        ScalingModifiers.ActivationTarget m = "" /\ ScalingModifiers.MetricType m = "")).
Proof.
  assert (Hfirst : IsUsingModifiers so = true <->
    exists advanced,
      ScaledObjectSpec.Advanced (ScaledObject.Spec so) = Some advanced /\
      AdvancedConfig.ScalingModifiers advanced <> ScalingModifiers.zero).
  { unfold IsUsingModifiers.
    destruct (ScaledObjectSpec.Advanced (ScaledObject.Spec so)) as [advanced|].
    - rewrite negb_true_iff, <- not_true_iff_false, DeepEqual_eq. split.
      + intros Hne. exists advanced. auto.
      + intros (adv' & Heq & Hne). now inversion Heq; subst.
    - split; [discriminate | intros (adv' & Heq & _); discriminate]. }
  split; [exact Hfirst |].
  rewrite Hfirst. cbv zeta.
  split; intros (advanced & Hadv & Hne); exists advanced; (split; [exact Hadv |]);
    now rewrite ?ScalingModifiers_zero_fields in *.
Qed.

Lemma IsUsingModifiers_iff_witness :
  IsUsingModifiers (fallbackSpec (Some formulaOnly) [] None) = true /\
  IsUsingModifiers (fallbackSpec (Some metricTypeOnly) [] None) = true /\
  IsUsingModifiers (fallbackSpec (Some emptyAdvanced) [] None) = false /\
  IsUsingModifiers (fallbackSpec None [] None) = false.
Proof.
  split; [| split; [| split]].
  - apply (proj2 (proj2 (IsUsingModifiers_iff (fallbackSpec (Some formulaOnly) [] None)))).
    exists formulaOnly. split; [reflexivity |]. cbv zeta. intros (Hformula & _). discriminate Hformula.
  - apply (proj2 (proj2 (IsUsingModifiers_iff (fallbackSpec (Some metricTypeOnly) [] None)))).
    exists metricTypeOnly. split; [reflexivity |]. cbv zeta. intros (_ & _ & _ & Hmt). discriminate Hmt.
  - apply not_true_is_false. intros Htrue.
    apply (proj1 (proj1 (IsUsingModifiers_iff (fallbackSpec (Some emptyAdvanced) [] None)))) in Htrue.
    destruct Htrue as (advanced & Heq & Hne). inversion Heq; subst. now apply Hne.
  - apply not_true_is_false. intros Htrue.
    apply (proj1 (proj1 (IsUsingModifiers_iff (fallbackSpec None [] None)))) in Htrue.
    destruct Htrue as (advanced & Heq & _). discriminate Heq.
Defined.

(** ** Fallback validation *)

Lemma classic_eligible (trigger : ScaleTriggers.t) :
  fallbackEligible trigger \/ ~ fallbackEligible trigger.
Proof.
  unfold fallbackEligible.
  destruct (String.eqb_spec (ScaleTriggers.Type_ trigger) "cpu");
    destruct (String.eqb_spec (ScaleTriggers.Type_ trigger) "memory");
    destruct (String.eqb_spec (ScaleTriggers.MetricType trigger) "");
    destruct (String.eqb_spec (ScaleTriggers.MetricType trigger) "AverageValue");
    tauto.
Qed.

(** One iteration of the loop reaches the [break] exactly on an eligible
    trigger. *)
Lemma scanTriggers_cons (trigger : ScaleTriggers.t) (rest : list ScaleTriggers.t) :
  (fallbackEligible trigger -> scanTriggers (trigger :: rest) = true) /\
  (~ fallbackEligible trigger -> scanTriggers (trigger :: rest) = scanTriggers rest).
Proof.
  unfold fallbackEligible. cbn [scanTriggers].
  unfold cpuString, memoryString, AverageValueMetricType.
  destruct (String.eqb_spec (ScaleTriggers.Type_ trigger) "cpu") as [Hcpu|Hcpu];
    cbn [orb]; [split; [tauto | reflexivity] |].
  destruct (String.eqb_spec (ScaleTriggers.Type_ trigger) "memory") as [Hmem|Hmem];
    [split; [tauto | reflexivity] |].
  destruct (String.eqb_spec (ScaleTriggers.MetricType trigger) "") as [Hunset|Hset].
  - cbn. split; [reflexivity | tauto].
  - destruct (String.eqb_spec (ScaleTriggers.MetricType trigger) "AverageValue") as [Havg|Havg];
      split; try reflexivity; try tauto.
Qed.

Lemma scanTriggers_true_iff (triggers : list ScaleTriggers.t) :
  scanTriggers triggers = true <->
  exists trigger, In trigger triggers /\ fallbackEligible trigger.
Proof.
  induction triggers as [|trigger rest IH].
  - cbn. split; [discriminate | intros (t & [] & _)].
  - destruct (scanTriggers_cons trigger rest) as [Hyes Hno].
    destruct (classic_eligible trigger) as [He|He].
    + rewrite (Hyes He). split; [| reflexivity].
      intros _. exists trigger. split; [now left | exact He].
    + rewrite (Hno He), IH. split.
      * intros (t & Hin & Ht). exists t. split; [now right | exact Ht].
      * intros (t & [<- | Hin] & Ht); [contradiction | eauto].
Qed.

(** Past the nil and sign checks, [CheckFallbackValid] is one of its two
    branches. *)
Lemma CheckFallbackValid_nonnegative (so : ScaledObject.t) (fb : Fallback.t) :
  ScaledObjectSpec.Fallback (ScaledObject.Spec so) = Some fb ->
  0 <= Fallback.FailureThreshold fb -> 0 <= Fallback.Replicas fb ->
  CheckFallbackValid so =
  if IsUsingModifiers so then
    match ScaledObjectSpec.Advanced (ScaledObject.Spec so) with
    | Some advanced =>
        if String.eqb (ScalingModifiers.MetricType (AdvancedConfig.ScalingModifiers advanced))
                      ValueMetricType
        then Some UnsupportedFallbackMetricType else None
    | None => None
    end
  else if scanTriggers (ScaledObjectSpec.Triggers (ScaledObject.Spec so))
       then None else Some NoEligibleFallbackTrigger.
Proof.
  intros Hfb Hft Hr. unfold CheckFallbackValid. rewrite Hfb.
  destruct (Z.ltb_spec (Fallback.FailureThreshold fb) 0); [lia |].
  destruct (Z.ltb_spec (Fallback.Replicas fb) 0); [lia |].
  cbn [orb]. destruct (IsUsingModifiers so); [reflexivity |].
  now destruct (scanTriggers _).
Qed.

Lemma IsUsingModifiers_withTriggers (so : ScaledObject.t) (ts : list ScaleTriggers.t) :
  IsUsingModifiers (ScaledObject.withTriggers so ts) = IsUsingModifiers so.
Proof. reflexivity. Qed.

Lemma scanTriggers_Permutation (ts ts' : list ScaleTriggers.t) :
  Permutation ts ts' -> scanTriggers ts = scanTriggers ts'.
Proof.
  intros Hperm. apply eq_true_iff_eq. rewrite !scanTriggers_true_iff.
  split; intros (t & Hin & Ht); exists t; (split; [| exact Ht]).
  - now apply (Permutation_in _ Hperm).
  - now apply (Permutation_in _ (Permutation_sym Hperm)).
Qed.

(** C4: with a fallback present, nonnegative fallback fields and no modifiers
    in use, [CheckFallbackValid] fails with [NoEligibleFallbackTrigger] exactly
    when no trigger is fallback-eligible, succeeds when one is, and gives the
    same outcome on every reordering of the triggers. *)
Theorem CheckFallbackValid_trigger_eligibility (so : ScaledObject.t) (fb : Fallback.t) :
  ScaledObjectSpec.Fallback (ScaledObject.Spec so) = Some fb ->
  0 <= Fallback.FailureThreshold fb -> 0 <= Fallback.Replicas fb ->
  IsUsingModifiers so = false ->
  let triggers := ScaledObjectSpec.Triggers (ScaledObject.Spec so) in
  (CheckFallbackValid so = Some NoEligibleFallbackTrigger <->
   ~ exists trigger, In trigger triggers /\ fallbackEligible trigger) /\
  ((exists trigger, In trigger triggers /\ fallbackEligible trigger) ->
   CheckFallbackValid so = None) /\
  (forall triggers', Permutation triggers triggers' ->
     CheckFallbackValid (ScaledObject.withTriggers so triggers') = CheckFallbackValid so).
Proof.
  intros Hfb Hft Hr Hmod triggers.
  rewrite (CheckFallbackValid_nonnegative so fb Hfb Hft Hr), Hmod.
  rewrite <- (scanTriggers_true_iff triggers). subst triggers.
  split; [| split].
  - destruct (scanTriggers _); split; congruence.
  - intros ->. reflexivity.
  - intros triggers' Hperm.
    rewrite (CheckFallbackValid_nonnegative (ScaledObject.withTriggers so triggers') fb);
      [| exact Hfb | exact Hft | exact Hr].
    rewrite IsUsingModifiers_withTriggers, Hmod.
    cbn [ScaledObject.withTriggers ScaledObject.Spec ScaledObjectSpec.withTriggers
         ScaledObjectSpec.Triggers].
    now rewrite (scanTriggers_Permutation _ _ Hperm).
Qed.

Lemma CheckFallbackValid_trigger_eligibility_witness :
  CheckFallbackValid (fallbackSpec None [cpuTrigger; memoryTrigger] (Some staticFallback))
    = Some NoEligibleFallbackTrigger /\
  CheckFallbackValid (fallbackSpec None [cpuTrigger; memoryTrigger; kafkaTrigger]
                        (Some staticFallback)) = None.
Proof.
  split.
  - apply (proj1 (CheckFallbackValid_trigger_eligibility
                    (fallbackSpec None [cpuTrigger; memoryTrigger] (Some staticFallback))
                    staticFallback eq_refl ltac:(cbn; lia) ltac:(cbn; lia) eq_refl)).
    intros (t & [<- | [<- | []]] & Ht); destruct Ht as (Hcpu & Hmem & _);
      [now apply Hcpu | now apply Hmem].
  - apply (proj1 (proj2 (CheckFallbackValid_trigger_eligibility
                    (fallbackSpec None [cpuTrigger; memoryTrigger; kafkaTrigger]
                       (Some staticFallback))
                    staticFallback eq_refl ltac:(cbn; lia) ltac:(cbn; lia) eq_refl))).
    exists kafkaTrigger. split; [cbn; tauto |].
    split; [discriminate | split; [discriminate | now left]].
Defined.

(** C5: with a fallback present, nonnegative fallback fields and modifiers in
    use, [CheckFallbackValid] fails with [UnsupportedFallbackMetricType]
    exactly when the modifiers' metric type is [Value]; it succeeds otherwise,
    in particular for an unset or [AverageValue] metric type. *)
Theorem CheckFallbackValid_modifiers_metric_type (so : ScaledObject.t) (fb : Fallback.t) :
  ScaledObjectSpec.Fallback (ScaledObject.Spec so) = Some fb ->
  0 <= Fallback.FailureThreshold fb -> 0 <= Fallback.Replicas fb ->
  IsUsingModifiers so = true ->
  exists advanced,
    ScaledObjectSpec.Advanced (ScaledObject.Spec so) = Some advanced /\
    let metricType := ScalingModifiers.MetricType (AdvancedConfig.ScalingModifiers advanced) in
    (CheckFallbackValid so = Some UnsupportedFallbackMetricType <-> metricType = "Value") /\
    (metricType <> "Value" -> CheckFallbackValid so = None) /\
    (metricType = "" \/ metricType = "AverageValue" -> CheckFallbackValid so = None).
Proof.
  intros Hfb Hft Hr Hmod.
  rewrite (CheckFallbackValid_nonnegative so fb Hfb Hft Hr), Hmod.
  unfold IsUsingModifiers in Hmod.
  destruct (ScaledObjectSpec.Advanced (ScaledObject.Spec so)) as [advanced|];
    [| discriminate Hmod].
  exists advanced. split; [reflexivity |]. cbv zeta. unfold ValueMetricType.
  destruct (String.eqb_spec
              (ScalingModifiers.MetricType (AdvancedConfig.ScalingModifiers advanced))
              "Value") as [Hv|Hv].
  - rewrite Hv. repeat split; try congruence. intros [H|H]; discriminate H.
  - repeat split; try congruence; try discriminate.
Qed.

Lemma CheckFallbackValid_modifiers_metric_type_witness :
  CheckFallbackValid (fallbackSpec (Some modifiersValue) [kafkaTrigger] (Some staticFallback))
    = Some UnsupportedFallbackMetricType /\
  CheckFallbackValid (fallbackSpec (Some modifiersAverageValue) [kafkaTrigger] (Some staticFallback))
    = None.
Proof.
  split.
  - destruct (CheckFallbackValid_modifiers_metric_type
                (fallbackSpec (Some modifiersValue) [kafkaTrigger] (Some staticFallback))
                staticFallback eq_refl ltac:(cbn; lia) ltac:(cbn; lia) eq_refl)
      as (advanced & Hadv & Hiff & _).
    apply (proj2 Hiff). inversion Hadv; subst. reflexivity.
  - destruct (CheckFallbackValid_modifiers_metric_type
                (fallbackSpec (Some modifiersAverageValue) [kafkaTrigger] (Some staticFallback))
                staticFallback eq_refl ltac:(cbn; lia) ltac:(cbn; lia) eq_refl)
      as (advanced & Hadv & _ & _ & Hok).
    apply Hok. inversion Hadv; subst. right. reflexivity.
Defined.

(** C8: with a fallback present, [CheckFallbackValid] fails with
    [NegativeFallbackField] exactly when failureThreshold or replicas is
    negative, and then does so whatever the modifiers and the triggers are;
    without a fallback it succeeds. *)
Theorem CheckFallbackValid_negative_field (so : ScaledObject.t) :
  (forall fb, ScaledObjectSpec.Fallback (ScaledObject.Spec so) = Some fb ->
     (isNegativeFallbackField (CheckFallbackValid so) <->
      Fallback.FailureThreshold fb < 0 \/ Fallback.Replicas fb < 0)) /\
  (forall fb, ScaledObjectSpec.Fallback (ScaledObject.Spec so) = Some fb ->
     Fallback.FailureThreshold fb < 0 \/ Fallback.Replicas fb < 0 ->
     CheckFallbackValid so =
       Some (NegativeFallbackField (Fallback.FailureThreshold fb) (Fallback.Replicas fb))) /\
  (ScaledObjectSpec.Fallback (ScaledObject.Spec so) = None ->
   CheckFallbackValid so = None).
Proof.
  split; [| split].
  - intros fb Hfb. split.
    + intros (ft & r & Heq).
      destruct (Z_lt_ge_dec (Fallback.FailureThreshold fb) 0) as [Hft|Hft]; [now left |].
      destruct (Z_lt_ge_dec (Fallback.Replicas fb) 0) as [Hr|Hr]; [now right |].
      rewrite (CheckFallbackValid_nonnegative so fb Hfb) in Heq by lia.
      destruct (IsUsingModifiers so).
      * destruct (ScaledObjectSpec.Advanced (ScaledObject.Spec so)) as [advanced|];
          [destruct (String.eqb _ _) |]; discriminate Heq.
      * destruct (scanTriggers _); discriminate Heq.
    + intros Hneg. unfold CheckFallbackValid. rewrite Hfb.
      destruct (Z.ltb_spec (Fallback.FailureThreshold fb) 0);
        destruct (Z.ltb_spec (Fallback.Replicas fb) 0); cbn [orb];
        try (unfold isNegativeFallbackField; eauto; fail); lia.
  - intros fb Hfb Hneg. unfold CheckFallbackValid. rewrite Hfb.
    destruct (Z.ltb_spec (Fallback.FailureThreshold fb) 0);
      destruct (Z.ltb_spec (Fallback.Replicas fb) 0); cbn [orb];
      try reflexivity; lia.
  - intros Hfb. unfold CheckFallbackValid. now rewrite Hfb.
Qed.

Lemma CheckFallbackValid_negative_field_witness :
  CheckFallbackValid (fallbackSpec (Some modifiersValue) [cpuTrigger]
                        (Some (Fallback.mk (-1) 2 "static")))
    = Some (NegativeFallbackField (-1) 2) /\
  CheckFallbackValid (fallbackSpec None [] (Some (Fallback.mk 0 (-7) "")))
    = Some (NegativeFallbackField 0 (-7)) /\
  CheckFallbackValid (fallbackSpec (Some modifiersValue) [cpuTrigger] None) = None.
Proof.
  split; [| split].
  - apply (proj1 (proj2 (CheckFallbackValid_negative_field
                           (fallbackSpec (Some modifiersValue) [cpuTrigger]
                              (Some (Fallback.mk (-1) 2 "static")))))
             (Fallback.mk (-1) 2 "static") eq_refl).
    left. cbn. lia.
  - apply (proj1 (proj2 (CheckFallbackValid_negative_field
                           (fallbackSpec None [] (Some (Fallback.mk 0 (-7) "")))))
             (Fallback.mk 0 (-7) "") eq_refl).
    right. cbn. lia.
  - apply (proj2 (proj2 (CheckFallbackValid_negative_field
                           (fallbackSpec (Some modifiersValue) [cpuTrigger] None)))).
    reflexivity.
Defined.

Lemma sameExceptTriggers_fields (s1 s2 : ScaledObjectSpec.t) :
  sameExceptTriggers s1 s2 ->
  ScaledObjectSpec.Advanced s1 = ScaledObjectSpec.Advanced s2 /\
  ScaledObjectSpec.Fallback s1 = ScaledObjectSpec.Fallback s2.
Proof.
  unfold sameExceptTriggers, ScaledObjectSpec.withTriggers.
  intros H. inversion H. auto.
Qed.

(** C10: two resources whose specs are identical except for their triggers,
    with a fallback present, nonnegative fallback fields and modifiers in use,
    get the same outcome from [CheckFallbackValid]: the triggers are not
    looked at. *)
Theorem CheckFallbackValid_modifiers_ignore_triggers
    (so1 so2 : ScaledObject.t) (fb : Fallback.t) :
  sameExceptTriggers (ScaledObject.Spec so1) (ScaledObject.Spec so2) ->
  ScaledObjectSpec.Fallback (ScaledObject.Spec so1) = Some fb ->
  0 <= Fallback.FailureThreshold fb -> 0 <= Fallback.Replicas fb ->
  IsUsingModifiers so1 = true ->
  CheckFallbackValid so1 = CheckFallbackValid so2.
Proof.
  intros Hsame Hfb Hft Hr Hmod.
  destruct (sameExceptTriggers_fields _ _ Hsame) as [Hadv Hfb12].
  assert (Hmod2 : IsUsingModifiers so2 = true).
  { unfold IsUsingModifiers in *. now rewrite <- Hadv. }
  rewrite (CheckFallbackValid_nonnegative so1 fb Hfb Hft Hr), Hmod.
  rewrite (CheckFallbackValid_nonnegative so2 fb) by (congruence || assumption).
  now rewrite Hmod2, Hadv.
Qed.

Lemma CheckFallbackValid_modifiers_ignore_triggers_witness :
  CheckFallbackValid (fallbackSpec (Some modifiersValue) [cpuTrigger] (Some staticFallback)) =
  CheckFallbackValid (fallbackSpec (Some modifiersValue) [kafkaTrigger; memoryTrigger]
                        (Some staticFallback)) /\
  CheckFallbackValid (fallbackSpec (Some modifiersAverageValue) [] (Some staticFallback)) =
  CheckFallbackValid (fallbackSpec (Some modifiersAverageValue) [kafkaValueTrigger]
                        (Some staticFallback)).
Proof.
  split.
  - apply (CheckFallbackValid_modifiers_ignore_triggers _ _ staticFallback);
      [reflexivity | reflexivity | cbn; lia | cbn; lia | reflexivity].
  - apply (CheckFallbackValid_modifiers_ignore_triggers _ _ staticFallback);
      [reflexivity | reflexivity | cbn; lia | cbn; lia | reflexivity].
Defined.

(** Without modifiers the same two trigger lists are told apart. *)
Example CheckFallbackValid_triggers_matter_without_modifiers :
  CheckFallbackValid (fallbackSpec None [cpuTrigger] (Some staticFallback))
    = Some NoEligibleFallbackTrigger /\
  CheckFallbackValid (fallbackSpec None [kafkaTrigger; memoryTrigger] (Some staticFallback))
    = None /\
  CheckFallbackValid (fallbackSpec None [kafkaValueTrigger] (Some staticFallback))
    = Some NoEligibleFallbackTrigger.
Proof. repeat split. Qed.

(** * Further properties of the code *)

(** ** Annotations *)

(** A resource is only ever paused through an annotation: when
    [NeedToBePausedByAnnotation] answers true, [HasPausedAnnotation] does
    too. *)
Theorem NeedToBePausedByAnnotation_HasPausedAnnotation (so : ScaledObject.t) :
  NeedToBePausedByAnnotation so = true -> HasPausedAnnotation so = true.
Proof.
  unfold NeedToBePausedByAnnotation, HasPausedAnnotation.
  destruct (GetAnnotations so !! PausedReplicasAnnotation) as [r|]; cbn [notNil].
  - intros _. apply orb_true_r.
  - destruct (GetAnnotations so !! PausedAnnotation) as [v|]; cbn [notNil];
      [reflexivity | discriminate].
Qed.

Lemma NeedToBePausedByAnnotation_HasPausedAnnotation_witness :
  HasPausedAnnotation (annotatedObject {[ PausedAnnotation := "not-a-bool" ]} None) = true.
Proof.
  apply NeedToBePausedByAnnotation_HasPausedAnnotation. reflexivity.
Defined.

(** The three annotation functions read the two pause keys only. *)
Lemma annotations_agree (so so' : ScaledObject.t) :
  GetAnnotations so !! PausedReplicasAnnotation
    = GetAnnotations so' !! PausedReplicasAnnotation ->
  GetAnnotations so !! PausedAnnotation = GetAnnotations so' !! PausedAnnotation ->
  ScaledObject.Status so = ScaledObject.Status so' ->
  HasPausedReplicaAnnotation so = HasPausedReplicaAnnotation so' /\
  HasPausedAnnotation so = HasPausedAnnotation so' /\
  NeedToBePausedByAnnotation so = NeedToBePausedByAnnotation so'.
Proof.
  intros Hr Hp Hs.
  unfold HasPausedReplicaAnnotation, HasPausedAnnotation, NeedToBePausedByAnnotation.
  now rewrite Hr, Hp, Hs.
Qed.

(** Setting or deleting an annotation other than the two pause keys changes
    none of [HasPausedReplicaAnnotation], [HasPausedAnnotation] and
    [NeedToBePausedByAnnotation]. *)
Theorem other_annotations_ignored (so : ScaledObject.t) (key value : string) :
  key <> PausedReplicasAnnotation -> key <> PausedAnnotation ->
  forall so',
    so' = withAnnotations so (<[key := value]> (GetAnnotations so)) \/
    so' = withAnnotations so (delete key (GetAnnotations so)) ->
    HasPausedReplicaAnnotation so' = HasPausedReplicaAnnotation so /\
    HasPausedAnnotation so' = HasPausedAnnotation so /\
    NeedToBePausedByAnnotation so' = NeedToBePausedByAnnotation so.
Proof.
  intros Hr Hp so' [-> | ->]; apply annotations_agree; try reflexivity;
    unfold withAnnotations, GetAnnotations; cbn [ScaledObject.ObjectMeta ObjectMeta.Annotations].
  - now apply lookup_insert_ne.
  - now apply lookup_insert_ne.
  - now apply lookup_delete_ne.
  - now apply lookup_delete_ne.
Qed.

Lemma other_annotations_ignored_witness :
  NeedToBePausedByAnnotation
    (withAnnotations (annotatedObject bothPauseAnnotations (Some 3))
       (<["scaledobject.keda.sh/transfer-hpa-ownership" := "true"]> bothPauseAnnotations))
  = NeedToBePausedByAnnotation (annotatedObject bothPauseAnnotations (Some 3)).
Proof.
  apply (other_annotations_ignored (annotatedObject bothPauseAnnotations (Some 3))
           "scaledobject.keda.sh/transfer-hpa-ownership" "true");
    [discriminate | discriminate | left; reflexivity].
Defined.

Lemma ParseBool_false_iff (v : string) :
  ParseBool v = Some false <-> In v falseStrings.
Proof.
  unfold ParseBool, falseStrings. split.
  - destruct (existsb _ _) eqn:Ht; [discriminate |].
    destruct (existsb (String.eqb v) ["0"; "f"; "F"; "FALSE"; "false"; "False"]) eqn:Hf;
      [| discriminate].
    intros _. apply existsb_exists in Hf as (x & Hin & Heq).
    apply String.eqb_eq in Heq. now subst.
  - intros Hin. cbn in Hin.
    repeat (destruct Hin as [<- | Hin]; [reflexivity |]). destruct Hin.
Qed.

(** With the paused annotation alone, the resource is left running exactly
    when the value is one of 0, f, F, FALSE, false, False; every other value,
    the empty string included, pauses it. *)
Theorem paused_annotation_false_values (so : ScaledObject.t) (v : string) :
  GetAnnotations so !! PausedReplicasAnnotation = None ->
  GetAnnotations so !! PausedAnnotation = Some v ->
  (NeedToBePausedByAnnotation so = false <-> In v falseStrings).
Proof.
  intros Hr Hp. unfold NeedToBePausedByAnnotation. rewrite Hr, Hp.
  rewrite <- ParseBool_false_iff.
  destruct (ParseBool v) as [[|]|]; split; congruence.
Qed.

Lemma paused_annotation_false_values_witness :
  NeedToBePausedByAnnotation (annotatedObject {[ PausedAnnotation := "F" ]} None) = false /\
  NeedToBePausedByAnnotation (annotatedObject {[ PausedAnnotation := "no" ]} None) <> false.
Proof.
  split.
  - apply (paused_annotation_false_values _ "F"); [reflexivity | reflexivity |].
    cbn. tauto.
  - intros H.
    apply (paused_annotation_false_values _ "no") in H; [| reflexivity | reflexivity].
    cbn in H. repeat (destruct H as [H | H]; [discriminate H |]). exact H.
Defined.

(** Setting the paused-replicas annotation, to any value, makes the pause
    state follow [Status.PausedReplicaCount] alone, so it unpauses a resource
    whose status has none even when the paused annotation says true; deleting
    it hands the decision back to the paused annotation. *)
Theorem paused_replicas_annotation_set_delete (so : ScaledObject.t) (value : string) :
  NeedToBePausedByAnnotation
    (withAnnotations so (<[PausedReplicasAnnotation := value]> (GetAnnotations so)))
  = notNil (ScaledObjectStatus.PausedReplicaCount (ScaledObject.Status so)) /\
  NeedToBePausedByAnnotation
    (withAnnotations so (delete PausedReplicasAnnotation (GetAnnotations so)))
  = match GetAnnotations so !! PausedAnnotation with
    | None => false
    | Some v => negb (existsb (String.eqb v) falseStrings)
    end.
Proof.
  unfold NeedToBePausedByAnnotation, withAnnotations, GetAnnotations.
  cbn [ScaledObject.ObjectMeta ObjectMeta.Annotations ScaledObject.Status].
  rewrite lookup_insert_eq, lookup_delete_eq.
  rewrite lookup_delete_ne by discriminate.
  split; [reflexivity |].
  destruct (ObjectMeta.Annotations (ScaledObject.ObjectMeta so) !! PausedAnnotation)
    as [v|]; [| reflexivity].
  unfold ParseBool, falseStrings.
  destruct (existsb (String.eqb v) ["1"; "t"; "T"; "TRUE"; "true"; "True"]) eqn:Ht.
  - apply existsb_exists in Ht as (x & Hin & Heq).
    apply String.eqb_eq in Heq. subst x. cbn in Hin.
    repeat (destruct Hin as [<- | Hin]; [reflexivity |]). destruct Hin.
  - now destruct (existsb (String.eqb v) ["0"; "f"; "F"; "FALSE"; "false"; "False"]).
Qed.

Example paused_replicas_annotation_unpauses :
  NeedToBePausedByAnnotation (annotatedObject {[ PausedAnnotation := "true" ]} None) = true /\
  NeedToBePausedByAnnotation
    (withAnnotations (annotatedObject {[ PausedAnnotation := "true" ]} None)
       (<[PausedReplicasAnnotation := "5"]> {[ PausedAnnotation := "true" ]})) = false.
Proof. split; reflexivity. Qed.

(** ** Replica bounds *)

(** [GetHPAMinReplicas] in closed form. *)
Lemma GetHPAMinReplicas_max (so : ScaledObject.t) :
  GetHPAMinReplicas so =
  match ScaledObjectSpec.MinReplicaCount (ScaledObject.Spec so) with
  | Some m => Z.max 1 m
  | None => 1
  end.
Proof.
  unfold GetHPAMinReplicas, defaultHPAMinReplicas.
  destruct (ScaledObjectSpec.MinReplicaCount (ScaledObject.Spec so)) as [m|];
    [| reflexivity].
  destruct (Z.gtb_spec m 0); lia.
Qed.

(** Every failure of the bounds check names the values it compared: either
    the compared minimum lies above the effective maximum and both are
    reported, or the maximum is respected, the idle count is set and at least
    the compared minimum, and these two are reported. *)
Theorem CheckReplicaCountBoundsAreValid_error_values
    (so : ScaledObject.t) (e : ValidationError) :
  CheckReplicaCountBoundsAreValid so = Some e ->
  let minReplicas :=
    match ScaledObjectSpec.MinReplicaCount (ScaledObject.Spec so) with
    | Some _ => GetHPAMinReplicas so
    | None => 0
    end in
  (e = OutOfBoundsReplicaCount minReplicas (GetHPAMaxReplicas so) /\
   GetHPAMaxReplicas so < minReplicas) \/
  (exists idle,
     ScaledObjectSpec.IdleReplicaCount (ScaledObject.Spec so) = Some idle /\
     e = IdleAboveOrEqualMin idle minReplicas /\
     minReplicas <= idle /\ minReplicas <= GetHPAMaxReplicas so).
Proof.
  rewrite (CheckReplicaCountBoundsAreValid_eq so), (GetHPAMinReplicas_max so).
  cbv zeta. intros H.
  destruct (ScaledObjectSpec.MinReplicaCount (ScaledObject.Spec so)) as [m|];
    destruct (ScaledObjectSpec.IdleReplicaCount (ScaledObject.Spec so)) as [idle|];
    repeat match type of H with
           | context [?a >? ?b] => destruct (Z.gtb_spec a b)
           | context [?a >=? ?b] => destruct (Z.geb_spec a b)
           end;
    inversion H; subst;
    try (left; split; [reflexivity | lia]);
    right; exists idle; repeat split; lia.
Qed.

Lemma CheckReplicaCountBoundsAreValid_error_values_witness :
  OutOfBoundsReplicaCount 1 0 =
  OutOfBoundsReplicaCount (GetHPAMinReplicas min0_max0) (GetHPAMaxReplicas min0_max0).
Proof.
  destruct (CheckReplicaCountBoundsAreValid_error_values min0_max0
              (OutOfBoundsReplicaCount 1 0) eq_refl)
    as [[Hvalues _] | (idle & Hidle & _)];
    [exact Hvalues | discriminate Hidle].
Defined.

Lemma CheckReplicaCountBoundsAreValid_accepted (so : ScaledObject.t) :
  CheckReplicaCountBoundsAreValid so = None ->
  let minReplicas :=
    match ScaledObjectSpec.MinReplicaCount (ScaledObject.Spec so) with
    | Some m => Z.max 1 m
    | None => 0
    end in
  minReplicas <= GetHPAMaxReplicas so /\
  (forall idle,
     ScaledObjectSpec.IdleReplicaCount (ScaledObject.Spec so) = Some idle ->
     idle < minReplicas).
Proof.
  rewrite (CheckReplicaCountBoundsAreValid_eq so). cbv zeta.
  destruct (ScaledObjectSpec.IdleReplicaCount (ScaledObject.Spec so)) as [idle|];
    repeat match goal with
           | |- context [?a >? ?b] => destruct (Z.gtb_spec a b)
           | |- context [?a >=? ?b] => destruct (Z.geb_spec a b)
           end;
    try discriminate;
    intros _; (split; [lia |]); intros i Hi; inversion Hi; subst; lia.
Qed.

(** The bounds check accepts a resource exactly when the compared minimum
    ([Z.max 1 m] for a declared [m], 0 for none) is at most the effective
    maximum and a set idle count lies strictly below it. *)
Theorem CheckReplicaCountBoundsAreValid_accepts_iff (so : ScaledObject.t) :
  CheckReplicaCountBoundsAreValid so = None <->
  let minReplicas :=
    match ScaledObjectSpec.MinReplicaCount (ScaledObject.Spec so) with
    | Some m => Z.max 1 m
    | None => 0
    end in
  minReplicas <= GetHPAMaxReplicas so /\
  (forall idle,
     ScaledObjectSpec.IdleReplicaCount (ScaledObject.Spec so) = Some idle ->
     idle < minReplicas).
Proof.
  rewrite (CheckReplicaCountBoundsAreValid_eq so). cbv zeta.
  destruct (ScaledObjectSpec.MinReplicaCount (ScaledObject.Spec so)) as [m|];
    destruct (ScaledObjectSpec.IdleReplicaCount (ScaledObject.Spec so)) as [idle|];
    repeat match goal with
           | |- context [?a >? ?b] => destruct (Z.gtb_spec a b)
           | |- context [?a >=? ?b] => destruct (Z.geb_spec a b)
           end;
    split;
    try discriminate;
    try (intros [Hmax Hidle]; try specialize (Hidle idle eq_refl); lia);
    try (intros _; split; [lia | intros i Hi; inversion Hi; subst; lia]);
    try (intros _; split; [lia | intros i Hi; discriminate Hi]);
    try reflexivity.
Qed.

Lemma CheckReplicaCountBoundsAreValid_accepts_iff_witness :
  CheckReplicaCountBoundsAreValid min10_idle9 = None.
Proof.
  apply (proj2 (CheckReplicaCountBoundsAreValid_accepts_iff min10_idle9)).
  cbv zeta. split.
  - change (Z.max 1 10 <= 100). lia.
  - intros idle Hidle. change (Some 9 = Some idle) in Hidle.
    inversion Hidle; subst. change (9 < Z.max 1 10). lia.
Defined.

(** An accepted resource has its idle count, when set, strictly below the
    minimum that [GetHPAMinReplicas] hands to the autoscaler; and a
    nonnegative idle count is accepted only together with a declared
    min-replica-count. *)
Theorem accepted_idle_below_HPA_min (so : ScaledObject.t) (idle : Z) :
  CheckReplicaCountBoundsAreValid so = None ->
  ScaledObjectSpec.IdleReplicaCount (ScaledObject.Spec so) = Some idle ->
  idle < GetHPAMinReplicas so /\
  (0 <= idle ->
   exists m, ScaledObjectSpec.MinReplicaCount (ScaledObject.Spec so) = Some m).
Proof.
  intros Hok Hidle.
  apply CheckReplicaCountBoundsAreValid_accepted in Hok. cbv zeta in Hok.
  destruct Hok as [_ Hbelow]. specialize (Hbelow idle Hidle).
  rewrite (GetHPAMinReplicas_max so).
  destruct (ScaledObjectSpec.MinReplicaCount (ScaledObject.Spec so)) as [m|].
  - split; [exact Hbelow | eauto].
  - split; lia.
Qed.

Lemma accepted_idle_below_HPA_min_witness :
  9 < GetHPAMinReplicas min10_idle9.
Proof.
  apply (accepted_idle_below_HPA_min min10_idle9 9); reflexivity.
Defined.

(** An accepted resource with a declared min-replica-count has consistent
    autoscaler bounds; without a declared min the only accepted resource with
    [GetHPAMinReplicas] above [GetHPAMaxReplicas] is the one whose declared
    max-replica-count is 0. *)
Theorem accepted_HPA_bounds (so : ScaledObject.t) :
  CheckReplicaCountBoundsAreValid so = None ->
  GetHPAMinReplicas so <= GetHPAMaxReplicas so \/
  (ScaledObjectSpec.MinReplicaCount (ScaledObject.Spec so) = None /\
   ScaledObjectSpec.MaxReplicaCount (ScaledObject.Spec so) = Some 0).
Proof.
  intros Hok.
  apply CheckReplicaCountBoundsAreValid_accepted in Hok. cbv zeta in Hok.
  destruct Hok as [Hmax _]. rewrite (GetHPAMinReplicas_max so).
  unfold GetHPAMaxReplicas, defaultHPAMaxReplicas in *.
  destruct (ScaledObjectSpec.MinReplicaCount (ScaledObject.Spec so)) as [m|];
    [now left |].
  destruct (ScaledObjectSpec.MaxReplicaCount (ScaledObject.Spec so)) as [mx|];
    [| left; lia].
  destruct (Z.eq_dec mx 0) as [-> | Hne]; [right; split; reflexivity | left; lia].
Qed.

Lemma accepted_HPA_bounds_witness :
  (GetHPAMinReplicas min10_idle9 <= GetHPAMaxReplicas min10_idle9 \/
   (ScaledObjectSpec.MinReplicaCount (ScaledObject.Spec min10_idle9) = None /\
    ScaledObjectSpec.MaxReplicaCount (ScaledObject.Spec min10_idle9) = Some 0)) /\
  (GetHPAMinReplicas (replicaSpec None None (Some 0))
     <= GetHPAMaxReplicas (replicaSpec None None (Some 0)) \/
   (ScaledObjectSpec.MinReplicaCount (ScaledObject.Spec (replicaSpec None None (Some 0))) = None /\
    ScaledObjectSpec.MaxReplicaCount (ScaledObject.Spec (replicaSpec None None (Some 0))) = Some 0)).
Proof.
  split.
  - apply (accepted_HPA_bounds min10_idle9). reflexivity.
  - apply (accepted_HPA_bounds (replicaSpec None None (Some 0))). reflexivity.
Defined.

(** The resource without a declared min and with a declared max of 0 is
    accepted although the autoscaler minimum 1 exceeds the maximum 0. *)
Example accepted_max0_without_min :
  CheckReplicaCountBoundsAreValid (replicaSpec None None (Some 0)) = None /\
  GetHPAMinReplicas (replicaSpec None None (Some 0)) = 1 /\
  GetHPAMaxReplicas (replicaSpec None None (Some 0)) = 0.
Proof. repeat split. Qed.

(** ** Fallback *)

Lemma CheckFallbackValid_withTriggers (so : ScaledObject.t) (ts : list ScaleTriggers.t) :
  CheckFallbackValid (ScaledObject.withTriggers so ts) =
  match ScaledObjectSpec.Fallback (ScaledObject.Spec so) with
  | None => None
  | Some fallback =>
      if (Fallback.FailureThreshold fallback <? 0) || (Fallback.Replicas fallback <? 0)
      then Some (NegativeFallbackField (Fallback.FailureThreshold fallback)
                                       (Fallback.Replicas fallback))
      else if IsUsingModifiers so then
        match ScaledObjectSpec.Advanced (ScaledObject.Spec so) with
        | Some advanced =>
            if String.eqb (ScalingModifiers.MetricType (AdvancedConfig.ScalingModifiers advanced))
                          ValueMetricType
            then Some UnsupportedFallbackMetricType
            else None
        | None => None
        end
      else if negb (scanTriggers ts) then Some NoEligibleFallbackTrigger else None
  end.
Proof. reflexivity. Qed.

Lemma withTriggers_same (so : ScaledObject.t) :
  ScaledObject.withTriggers so (ScaledObjectSpec.Triggers (ScaledObject.Spec so)) = so.
Proof. now destruct so as [meta [] status]. Qed.

Lemma metricType_Value_IsUsingModifiers (so : ScaledObject.t) (advanced : AdvancedConfig.t) :
  ScaledObjectSpec.Advanced (ScaledObject.Spec so) = Some advanced ->
  ScalingModifiers.MetricType (AdvancedConfig.ScalingModifiers advanced) = "Value" ->
  IsUsingModifiers so = true.
Proof.
  intros Hadv Hmt. unfold IsUsingModifiers, DeepEqual. rewrite Hadv, Hmt.
  cbn. now rewrite andb_false_r.
Qed.

(** The two fallback-specific failures and their causes.  The metric-type
    failure needs no more than a nonnegative fallback and an Advanced block
    whose modifiers have metric type [Value], even if formula and targets are
    empty; the trigger failure arises exactly for a nonnegative fallback
    without modifiers in use and without an eligible trigger. *)
Theorem CheckFallbackValid_failure_causes (so : ScaledObject.t) :
  (CheckFallbackValid so = Some UnsupportedFallbackMetricType <->
   exists fb advanced,
     ScaledObjectSpec.Fallback (ScaledObject.Spec so) = Some fb /\
     0 <= Fallback.FailureThreshold fb /\ 0 <= Fallback.Replicas fb /\
     ScaledObjectSpec.Advanced (ScaledObject.Spec so) = Some advanced /\
     ScalingModifiers.MetricType (AdvancedConfig.ScalingModifiers advanced) = "Value") /\
  (CheckFallbackValid so = Some NoEligibleFallbackTrigger <->
   exists fb,
     ScaledObjectSpec.Fallback (ScaledObject.Spec so) = Some fb /\
     0 <= Fallback.FailureThreshold fb /\ 0 <= Fallback.Replicas fb /\
     IsUsingModifiers so = false /\
     ~ exists trigger,
         In trigger (ScaledObjectSpec.Triggers (ScaledObject.Spec so)) /\
         fallbackEligible trigger).
Proof.
  split; split.
  - intros H. unfold CheckFallbackValid in H.
    destruct (ScaledObjectSpec.Fallback (ScaledObject.Spec so)) as [fb|]; [| discriminate H].
    destruct (Z.ltb_spec (Fallback.FailureThreshold fb) 0); [discriminate H |].
    destruct (Z.ltb_spec (Fallback.Replicas fb) 0); [discriminate H |]. cbn [orb] in H.
    destruct (IsUsingModifiers so).
    + destruct (ScaledObjectSpec.Advanced (ScaledObject.Spec so)) as [advanced|];
        [| discriminate H].
      destruct (String.eqb_spec
                  (ScalingModifiers.MetricType (AdvancedConfig.ScalingModifiers advanced))
                  ValueMetricType) as [Hv|Hv]; [| discriminate H].
      exists fb, advanced. auto.
    + destruct (scanTriggers _); discriminate H.
  - intros (fb & advanced & Hfb & Hft & Hr & Hadv & Hmt).
    rewrite (CheckFallbackValid_nonnegative so fb Hfb Hft Hr).
    rewrite (metricType_Value_IsUsingModifiers so advanced Hadv Hmt), Hadv, Hmt.
    reflexivity.
  - intros H. unfold CheckFallbackValid in H.
    destruct (ScaledObjectSpec.Fallback (ScaledObject.Spec so)) as [fb|]; [| discriminate H].
    destruct (Z.ltb_spec (Fallback.FailureThreshold fb) 0); [discriminate H |].
    destruct (Z.ltb_spec (Fallback.Replicas fb) 0); [discriminate H |]. cbn [orb] in H.
    exists fb. destruct (IsUsingModifiers so).
    + destruct (ScaledObjectSpec.Advanced (ScaledObject.Spec so)) as [advanced|];
        [destruct (String.eqb _ _) |]; discriminate H.
    + destruct (scanTriggers _) eqn:Hscan; [discriminate H |].
      repeat split; auto.
      intros Hex. apply scanTriggers_true_iff in Hex. congruence.
  - intros (fb & Hfb & Hft & Hr & Hmod & Hscan).
    rewrite (CheckFallbackValid_nonnegative so fb Hfb Hft Hr), Hmod.
    destruct (scanTriggers _) eqn:Hs; [| reflexivity].
    apply scanTriggers_true_iff in Hs. contradiction.
Qed.

Lemma CheckFallbackValid_failure_causes_witness :
  CheckFallbackValid (fallbackSpec (Some metricTypeOnly) [kafkaTrigger] (Some staticFallback))
    = Some UnsupportedFallbackMetricType.
Proof.
  apply (proj2 (proj1 (CheckFallbackValid_failure_causes
                         (fallbackSpec (Some metricTypeOnly) [kafkaTrigger]
                            (Some staticFallback))))).
  exists staticFallback, metricTypeOnly.
  split; [reflexivity |]. split; [cbn; lia |]. split; [cbn; lia |].
  split; reflexivity.
Defined.

(** [CheckFallbackValid] accepts a resource exactly when it has no fallback,
    or a fallback with nonnegative fields together with either modifiers in
    use whose metric type is not [Value], or no modifiers in use and an
    eligible trigger. *)
Theorem CheckFallbackValid_accepts_iff (so : ScaledObject.t) :
  CheckFallbackValid so = None <->
  match ScaledObjectSpec.Fallback (ScaledObject.Spec so) with
  | None => True
  | Some fb =>
      0 <= Fallback.FailureThreshold fb /\ 0 <= Fallback.Replicas fb /\
      ((IsUsingModifiers so = true /\
        forall advanced,
          ScaledObjectSpec.Advanced (ScaledObject.Spec so) = Some advanced ->
          ScalingModifiers.MetricType (AdvancedConfig.ScalingModifiers advanced) <> "Value") \/
       (IsUsingModifiers so = false /\
        exists trigger,
          In trigger (ScaledObjectSpec.Triggers (ScaledObject.Spec so)) /\
          fallbackEligible trigger))
  end.
Proof.
  unfold CheckFallbackValid.
  destruct (ScaledObjectSpec.Fallback (ScaledObject.Spec so)) as [fb|]; [| tauto].
  destruct (Z.ltb_spec (Fallback.FailureThreshold fb) 0);
    [split; [discriminate | lia] |].
  destruct (Z.ltb_spec (Fallback.Replicas fb) 0);
    [split; [discriminate | lia] |].
  cbn [orb]. destruct (IsUsingModifiers so) eqn:Hmod.
  - destruct (ScaledObjectSpec.Advanced (ScaledObject.Spec so)) as [advanced|].
    + unfold ValueMetricType.
      destruct (String.eqb_spec
                  (ScalingModifiers.MetricType (AdvancedConfig.ScalingModifiers advanced))
                  "Value") as [Hv|Hv]; split.
      * discriminate.
      * intros (_ & _ & [[_ Hne] | [Hfalse _]]);
          [now elim (Hne advanced eq_refl) | discriminate Hfalse].
      * intros _. split; [lia | split; [lia |]]. left. split; [reflexivity |].
        intros adv' Heq. now inversion Heq; subst.
      * reflexivity.
    + split; [| reflexivity]. intros _. split; [lia | split; [lia |]].
      left. split; [reflexivity | discriminate].
  - destruct (scanTriggers _) eqn:Hscan; cbn [negb]; split.
    + intros _. split; [lia | split; [lia |]]. right. split; [reflexivity |].
      now apply scanTriggers_true_iff.
    + reflexivity.
    + discriminate.
    + intros (_ & _ & [[Htrue _] | [_ Hex]]); [discriminate Htrue |].
      apply scanTriggers_true_iff in Hex. congruence.
Qed.

Lemma CheckFallbackValid_accepts_iff_witness :
  CheckFallbackValid (fallbackSpec None [cpuTrigger; kafkaTrigger] (Some staticFallback)) = None.
Proof.
  apply (proj2 (CheckFallbackValid_accepts_iff
                  (fallbackSpec None [cpuTrigger; kafkaTrigger] (Some staticFallback)))).
  split; [cbn; lia |]. split; [cbn; lia |].
  right. split; [reflexivity |].
  exists kafkaTrigger. split; [cbn; tauto |].
  split; [discriminate | split; [discriminate | now left]].
Defined.

(** Adding triggers never invalidates a fallback: a resource that passes
    [CheckFallbackValid] still passes with any trigger list that contains its
    triggers. *)
Theorem CheckFallbackValid_more_triggers
    (so : ScaledObject.t) (triggers' : list ScaleTriggers.t) :
  CheckFallbackValid so = None ->
  incl (ScaledObjectSpec.Triggers (ScaledObject.Spec so)) triggers' ->
  CheckFallbackValid (ScaledObject.withTriggers so triggers') = None.
Proof.
  intros Hok Hincl.
  rewrite <- (withTriggers_same so) in Hok.
  rewrite CheckFallbackValid_withTriggers in *.
  destruct (ScaledObjectSpec.Fallback (ScaledObject.Spec so)) as [fb|]; [| reflexivity].
  destruct (_ || _); [discriminate Hok |].
  destruct (IsUsingModifiers so); [exact Hok |].
  destruct (scanTriggers (ScaledObjectSpec.Triggers (ScaledObject.Spec so))) eqn:Hscan;
    [| discriminate Hok].
  apply scanTriggers_true_iff in Hscan as (t & Hin & Ht).
  assert (Hscan' : scanTriggers triggers' = true).
  { apply scanTriggers_true_iff. exists t. split; [now apply Hincl | exact Ht]. }
  now rewrite Hscan'.
Qed.

Lemma CheckFallbackValid_more_triggers_witness :
  CheckFallbackValid
    (ScaledObject.withTriggers
       (fallbackSpec None [kafkaTrigger] (Some staticFallback))
       [cpuTrigger; kafkaValueTrigger; kafkaTrigger; memoryTrigger]) = None.
Proof.
  apply CheckFallbackValid_more_triggers; [reflexivity |].
  intros t [<- | []]. cbn. tauto.
Defined.

Lemma scanTriggers_dropResourceTriggers (triggers : list ScaleTriggers.t) :
  scanTriggers (dropResourceTriggers triggers) = scanTriggers triggers.
Proof.
  induction triggers as [|trigger rest IH]; [reflexivity |].
  unfold dropResourceTriggers in *. cbn [List.filter scanTriggers].
  unfold isResourceTrigger at 1.
  destruct (String.eqb (ScaleTriggers.Type_ trigger) cpuString
            || String.eqb (ScaleTriggers.Type_ trigger) memoryString) eqn:Hres;
    cbn [negb]; [exact IH |].
  cbn [scanTriggers]. rewrite Hres, IH. reflexivity.
Qed.

(** cpu and memory triggers carry no weight in the fallback check: removing
    all of them from the trigger list leaves the outcome unchanged. *)
Theorem CheckFallbackValid_dropResourceTriggers (so : ScaledObject.t) :
  CheckFallbackValid
    (ScaledObject.withTriggers so
       (dropResourceTriggers (ScaledObjectSpec.Triggers (ScaledObject.Spec so))))
  = CheckFallbackValid so.
Proof.
  rewrite <- (withTriggers_same so) at 2.
  rewrite !CheckFallbackValid_withTriggers.
  now rewrite scanTriggers_dropResourceTriggers.
Qed.

Lemma scanTriggers_reads_only (ts1 ts2 : list ScaleTriggers.t) :
  map (fun t => (ScaleTriggers.Type_ t, ScaleTriggers.MetricType t)) ts1
    = map (fun t => (ScaleTriggers.Type_ t, ScaleTriggers.MetricType t)) ts2 ->
  scanTriggers ts1 = scanTriggers ts2.
Proof.
  revert ts2. induction ts1 as [|t1 rest1 IH]; intros [|t2 rest2] Hmap;
    try discriminate Hmap; [reflexivity |].
  cbn [map] in Hmap. inversion Hmap as [[Htype Hmt Hrest]].
  cbn [scanTriggers]. rewrite Htype, Hmt, (IH rest2 Hrest). reflexivity.
Qed.

(** [CheckFallbackValid] reads nothing but the two numbers of the fallback,
    the scaling modifiers and the type and metric type of each trigger: two
    resources that agree on these get the same outcome, whatever their
    fallback behavior, trigger names, replica counts, autoscaler
    configuration, annotations and status are. *)
Theorem CheckFallbackValid_reads_only (so1 so2 : ScaledObject.t) :
  let s1 := ScaledObject.Spec so1 in
  let s2 := ScaledObject.Spec so2 in
  option_map (fun fb => (Fallback.FailureThreshold fb, Fallback.Replicas fb))
             (ScaledObjectSpec.Fallback s1)
  = option_map (fun fb => (Fallback.FailureThreshold fb, Fallback.Replicas fb))
               (ScaledObjectSpec.Fallback s2) ->
  option_map AdvancedConfig.ScalingModifiers (ScaledObjectSpec.Advanced s1)
  = option_map AdvancedConfig.ScalingModifiers (ScaledObjectSpec.Advanced s2) ->
  map (fun t => (ScaleTriggers.Type_ t, ScaleTriggers.MetricType t))
      (ScaledObjectSpec.Triggers s1)
  = map (fun t => (ScaleTriggers.Type_ t, ScaleTriggers.MetricType t))
        (ScaledObjectSpec.Triggers s2) ->
  CheckFallbackValid so1 = CheckFallbackValid so2.
Proof.
  cbv zeta. intros Hfb Hadv Hts.
  unfold CheckFallbackValid, IsUsingModifiers.
  rewrite (scanTriggers_reads_only _ _ Hts).
  destruct (ScaledObjectSpec.Fallback (ScaledObject.Spec so1)) as [fb1|],
           (ScaledObjectSpec.Fallback (ScaledObject.Spec so2)) as [fb2|];
    try discriminate Hfb; [| reflexivity].
  cbn [option_map] in Hfb. inversion Hfb as [[Hft Hr]]. rewrite Hft, Hr.
  destruct (ScaledObjectSpec.Advanced (ScaledObject.Spec so1)) as [a1|],
           (ScaledObjectSpec.Advanced (ScaledObject.Spec so2)) as [a2|];
    try discriminate Hadv; [| reflexivity].
  cbn [option_map] in Hadv. inversion Hadv as [Hsm]. reflexivity.
Qed.

Lemma CheckFallbackValid_reads_only_witness :
  CheckFallbackValid
    (ScaledObject.mk (ObjectMeta.mk "a" "prod" bothPauseAnnotations)
       (ScaledObjectSpec.mk None (Some 30) None None (Some 0) (Some 1) (Some 5)
          (Some emptyAdvanced) [ScaleTriggers.mk "kafka" "orders" ""]
          (Some (Fallback.mk 3 2 "currentReplicasIfHigher")))
       (ScaledObjectStatus.mk "Deployment" (Some 2) (Some 1) "keda-hpa-a"))
  = CheckFallbackValid
      (fallbackSpec (Some (AdvancedConfig.mk None false ScalingModifiers.zero))
         [kafkaTrigger] (Some staticFallback)).
Proof.
  apply CheckFallbackValid_reads_only; reflexivity.
Defined.

(** ** Messages *)

(** Two texts that agree, each cut at a blank that follows a blank-free
    part, agree part by part. *)
Lemma append_blank_inj (s1 s2 t1 t2 : string) :
  ~ In " "%char (String.list_ascii_of_string s1) ->
  ~ In " "%char (String.list_ascii_of_string s2) ->
  s1 +:+ String " " t1 = s2 +:+ String " " t2 ->
  s1 = s2 /\ t1 = t2.
Proof.
  revert s2. induction s1 as [|c1 s1 IH]; intros [|c2 s2] H1 H2 Heq; cbn in *.
  - inversion Heq. auto.
  - inversion Heq; subst. tauto.
  - inversion Heq; subst. tauto.
  - inversion Heq; subst.
    destruct (IH s2) as [-> ->]; [tauto | tauto | assumption | auto].
Qed.

Lemma append_prefix_inj (p s s' : string) : p +:+ s = p +:+ s' -> s = s'.
Proof.
  induction p as [|c p IH]; cbn; [auto |].
  intros Heq. inversion Heq. auto.
Qed.

Lemma string_of_uint_no_blank (d : Decimal.uint) :
  ~ In " "%char (String.list_ascii_of_string (NilEmpty.string_of_uint d)).
Proof.
  induction d; cbn; [tauto | ..]; intros [Hc | Hin]; try discriminate Hc; auto.
Qed.

Lemma fmt_d_no_blank (z : Z) : ~ In " "%char (String.list_ascii_of_string (fmt_d z)).
Proof.
  unfold fmt_d, NilZero.string_of_int, NilZero.string_of_uint.
  destruct (Z.to_int z) as [d|d]; destruct d; cbn;
    try (intros [Hc | Hin]; [discriminate Hc | now destruct Hin]);
    intros H;
    repeat (destruct H as [H | H]; [discriminate H |]);
    now apply string_of_uint_no_blank in H.
Qed.

(** The decimal rendering can be read back, so it loses nothing. *)
Lemma fmt_d_inj (a b : Z) : fmt_d a = fmt_d b -> a = b.
Proof.
  unfold fmt_d. intros Heq. apply DecimalZ.to_int_inj.
  assert (Hnonnil : forall z, Z.to_int z <> Decimal.Pos Decimal.Nil /\
                              Z.to_int z <> Decimal.Neg Decimal.Nil).
  { intros [|p|p]; cbn; split; try discriminate;
      intros H; inversion H as [Hp]; now apply DecimalPos.Unsigned.to_uint_nonnil in Hp. }
  destruct (Hnonnil a) as [Ha1 Ha2], (Hnonnil b) as [Hb1 Hb2].
  pose proof (NilZero.isi (Z.to_int a) Ha1 Ha2) as Hra.
  pose proof (NilZero.isi (Z.to_int b) Hb1 Hb2) as Hrb.
  rewrite Heq in Hra. congruence.
Qed.

(** The message of a validation failure determines the failure: its kind and
    the numbers it reports can be read back from the text. *)
Theorem ErrorString_inj (e1 e2 : ValidationError) :
  ErrorString e1 = ErrorString e2 -> e1 = e2.
Proof.
  destruct e1 as [a1 b1 | a1 b1 | a1 b1 | |], e2 as [a2 b2 | a2 b2 | a2 b2 | |];
    cbn [ErrorString]; intros Heq;
    try reflexivity;
    try (cbn in Heq; discriminate Heq).
  - apply append_prefix_inj in Heq.
    change (fmt_d a1 +:+ String " " ("must be less than MaxReplicaCount=" +:+ fmt_d b1)
            = fmt_d a2 +:+ String " " ("must be less than MaxReplicaCount=" +:+ fmt_d b2))
      in Heq.
    apply append_blank_inj in Heq as [Ha Hb]; try apply fmt_d_no_blank.
    apply append_prefix_inj in Hb.
    now rewrite (fmt_d_inj _ _ Ha), (fmt_d_inj _ _ Hb).
  - apply append_prefix_inj in Heq.
    change (fmt_d a1 +:+ String " " ("must be less than MinReplicaCount=" +:+ fmt_d b1)
            = fmt_d a2 +:+ String " " ("must be less than MinReplicaCount=" +:+ fmt_d b2))
      in Heq.
    apply append_blank_inj in Heq as [Ha Hb]; try apply fmt_d_no_blank.
    apply append_prefix_inj in Hb.
    now rewrite (fmt_d_inj _ _ Ha), (fmt_d_inj _ _ Hb).
  - apply append_prefix_inj in Heq.
    change (fmt_d a1 +:+ String " " ("& Replicas=" +:+ fmt_d b1 +:+
                                     String " " "must both be greater than or equal to 0")
            = fmt_d a2 +:+ String " " ("& Replicas=" +:+ fmt_d b2 +:+
                                       String " " "must both be greater than or equal to 0"))
      in Heq.
    apply append_blank_inj in Heq as [Ha Hb]; try apply fmt_d_no_blank.
    apply append_prefix_inj in Hb.
    apply append_blank_inj in Hb as [Hb _]; try apply fmt_d_no_blank.
    now rewrite (fmt_d_inj _ _ Ha), (fmt_d_inj _ _ Hb).
Qed.

Lemma ErrorString_inj_witness :
  NegativeFallbackField (-1) 2 = NegativeFallbackField (-1) 2.
Proof.
  apply ErrorString_inj. reflexivity.
Defined.

Example ErrorString_negative_field :
  ErrorString (NegativeFallbackField (-1) 2)
  = "FailureThreshold=-1 & Replicas=2 must both be greater than or equal to 0".
Proof. reflexivity. Qed.
